(** * Users API: the request handlers of [src/controllers/UsersController.ts]

    A shallow embedding of the five handlers ([index], [show], [create],
    [change], [remove]) and of what they touch: the [users] table, the
    Express response object, the system random source and the error
    console.  Handlers are [async] functions with [try]/[catch]; they are
    written here in a state-and-exception monad over [State], one monadic
    bind per [await]. *)

From Stdlib Require Import Floats.PrimFloat Strings.Ascii.
From stdpp Require Import base strings list gmap pretty.

Open Scope string_scope.

(** ** Data model *)

(** [src/models/User.ts].  The interface declares every attribute as
    present, but the handlers fill the five attributes after [id] from the
    untyped request body, where any of them can be missing: [None] is
    JavaScript's [undefined].  A [number] is an IEEE double. *)
Module User.
Record t := mk
  { id : string;
    name : option string;
    phone : option string;
    email : option string;
    age : option float;
    weight : option float }.
End User.

(** The part of an Express request the handlers read: [request.params.id]
    (bound by the route [/users/:id]; [index] and [create] do not read it)
    and the five attributes destructured from [request.body].  This is a
    request whose body was parsed into an object, each attribute of its
    declared type or missing.  [create] and [change] destructure the body,
    and [create] calls [validate], before their [try]: a request with no
    body at all is outside this type. *)
Module Request.
Record body := mkBody
  { name : option string;
    phone : option string;
    email : option string;
    age : option float;
    weight : option float }.
Record t := mk { id : string; body_of : body }.
End Request.

(** What [response.json] is given: an object with a [message], one user, or
    the array of users. *)
Inductive Json :=
| JMessage (message : string)
| JUser (user : User.t)
| JUsers (users : list User.t).

(** The Express response: status code (200 until set), the headers written
    with [response.set], and the body written with [response.json]. *)
Record Response := mkResponse
  { statusCode : nat;
    headers : gmap string string;
    sent : option Json }.

Definition fresh_response : Response :=
  {| statusCode := 200; headers := ∅; sent := None |}.

(** What a rejected query carries into a [catch] block. *)
Inductive Error :=
| StoreFailure
| UniqueViolation (id : string).

(** Everything a handler can read or change.
    - [users_table]: the rows of the [users] table, in insertion order;
    - [faults]: for each query still to come, whether the store fails on it
      (no entry: it does not);
    - [entropy], [drawn]: the bytes of the system random source and how many
      were consumed;
    - [console]: what [console.error] printed, oldest first;
    - [response]: the response object of the request being handled. *)
Record State := mkState
  { users_table : list User.t;
    faults : list bool;
    entropy : nat → Byte.byte;
    drawn : nat;
    console : list Error;
    response : Response }.

Definition set_users (us : list User.t) (s : State) : State :=
  mkState us (faults s) (entropy s) (drawn s) (console s) (response s).
Definition set_faults (fs : list bool) (s : State) : State :=
  mkState (users_table s) fs (entropy s) (drawn s) (console s) (response s).
Definition set_drawn (n : nat) (s : State) : State :=
  mkState (users_table s) (faults s) (entropy s) n (console s) (response s).
Definition set_console (c : list Error) (s : State) : State :=
  mkState (users_table s) (faults s) (entropy s) (drawn s) c (response s).
Definition set_response (r : Response) (s : State) : State :=
  mkState (users_table s) (faults s) (entropy s) (drawn s) (console s) r.

(** Whether the store fails on the [k]-th query from now. *)
Definition fault_at (k : nat) (s : State) : bool := nth k (faults s) false.

(** ** The monad of [async] code *)

Inductive Outcome (A : Type) :=
| Return (a : A)
| Throw (e : Error).
Arguments Return {A} a.
Arguments Throw {A} e.

Definition Async (A : Type) : Type := State → Outcome A * State.

Definition bind {A B} (m : Async A) (k : A → Async B) : Async B :=
  λ s, match m s with
       | (Return a, s') => k a s'
       | (Throw e, s') => (Throw e, s')
       end.

(** [try { m } catch (err) { h err }]: state changes made before the throw
    are kept. *)
Definition try_catch {A} (m : Async A) (h : Error → Async A) : Async A :=
  λ s, match m s with
       | (Return a, s') => (Return a, s')
       | (Throw e, s') => h e s'
       end.

Declare Scope async_scope.
Delimit Scope async_scope with async.
Notation "'await' x ':=' m 'in' k" := (bind m (λ x, k))
  (at level 10, x name, m at level 100, k at level 200,
   format "'[v' 'await'  x  :=  m  'in' '/' k ']'") : async_scope.
Open Scope async_scope.

(** ** The response object and the console *)

(** [response.set(field, value)]. *)
Definition response_set (field value : string) : Async unit :=
  λ s, let r := response s in
       (Return (), set_response (mkResponse (statusCode r) (<[field := value]> (headers r)) (sent r)) s).

(** [response.status(code).json(body)]; evaluates to the response object. *)
Definition response_status_json (code : nat) (body : Json) : Async Response :=
  λ s, let r := mkResponse code (headers (response s)) (Some body) in
       (Return r, set_response r s).

(** [console.error(err)]. *)
Definition console_error (err : Error) : Async unit :=
  λ s, (Return (), set_console ((console s ++ [err])%list) s).

(** ** The random source: [randomBytes(n).toString('hex')] *)

Definition randomBytes (n : nat) : Async (list Byte.byte) :=
  λ s, (Return (entropy s <$> seq (drawn s) n), set_drawn (drawn s + n) s).

Definition hex_digit (n : N) : Ascii.ascii :=
  match String.get (N.to_nat n) "0123456789abcdef" with
  | Some c => c
  | None => "0"%char
  end.

Definition byte_hex (b : Byte.byte) : string :=
  let n := Byte.to_N b in
  String (hex_digit (n / 16)) (String (hex_digit (n mod 16)) EmptyString).

Fixpoint toString_hex (bs : list Byte.byte) : string :=
  match bs with
  | [] => ""
  | b :: bs => byte_hex b +:+ toString_hex bs
  end.

Definition is_hex_digit (c : Ascii.ascii) : bool :=
  bool_decide (c ∈ String.list_ascii_of_string "0123456789abcdef").

(** A value inside a template literal: [undefined] prints as its name. *)
Definition interpolate (v : option string) : string :=
  match v with
  | Some s => s
  | None => "undefined"
  end.

(** ** The data store

    The handlers reach the store through [db], the query builder that
    [src/database/connection.ts] binds to it.  That file is not among the
    sources, so the six queries the handlers issue are written from the
    spec: one [users] table with [id] as primary key; list-all, count-all,
    find-by-id, insert-one, update-by-id and delete-by-id, each of which can
    fail; an update overwrites the five attributes after [id] together, a
    missing one included. *)

(** Modelled from the spec: one query through [db] (missing:
    [src/database/connection.ts]).  It fails when the store is scheduled to
    fail or when [run] rejects it, and otherwise answers and leaves the table
    [run] computes. *)
Definition query {A} (run : list User.t → Error + A * list User.t) : Async A :=
  λ s, let s' := set_faults (tail (faults s)) s in
       if fault_at 0 s then (Throw StoreFailure, s')
       else match run (users_table s) with
            | inl e => (Throw e, s')
            | inr (a, us) => (Return a, set_users us s')
            end.

(** [.where('id', id)]. *)
Definition where_id (id : string) (u : User.t) : bool :=
  bool_decide (User.id u = id).

(** Modelled from the spec: list-all, [db('users').select('*')]. *)
Definition db_select : Async (list User.t) :=
  query (λ us, inr (us, us)).

(** Modelled from the spec: count-all, [db('users').count('* as total')];
    the value is the [total] of its only row. *)
Definition db_count : Async nat :=
  query (λ us, inr (length us, us)).

(** Modelled from the spec: find-by-id,
    [db('users').where('id', id).select('*').first()]; [None] is the
    [undefined] of a search that matches no row. *)
Definition db_where_first (id : string) : Async (option User.t) :=
  query (λ us, inr (find (where_id id) us, us)).

(** Modelled from the spec: insert-one, [db('users').insert(new_user)]; [id]
    being the primary key, a row whose id is taken is refused. *)
Definition db_insert (new_user : User.t) : Async unit :=
  query (λ us, if existsb (where_id (User.id new_user)) us
               then inl (UniqueViolation (User.id new_user))
               else inr ((), (us ++ [new_user])%list)).

(** A row with the five attributes after [id] replaced by those of [b]. *)
Definition overwrite (b : Request.body) (u : User.t) : User.t :=
  User.mk (User.id u) (Request.name b) (Request.phone b) (Request.email b)
          (Request.age b) (Request.weight b).

(** The rows an update leaves: those with the id overwritten, the others
    kept. *)
Definition updated (id : string) (b : Request.body) (us : list User.t) : list User.t :=
  (λ u, if where_id id u then overwrite b u else u) <$> us.

(** The rows a delete leaves. *)
Definition deleted (id : string) (us : list User.t) : list User.t :=
  List.filter (λ u, negb (where_id id u)) us.

(** Modelled from the spec: update-by-id,
    [db('users').where('id', id).update({ name, phone, email, age, weight })]. *)
Definition db_where_update (id : string) (b : Request.body) : Async unit :=
  query (λ us, inr ((), updated id b us)).

(** Modelled from the spec: delete-by-id,
    [db('users').where('id', id).first().delete()]. *)
Definition db_where_delete (id : string) : Async unit :=
  query (λ us, inr ((), deleted id us)).

(** ** The handlers *)

Definition index (request : Request.t) : Async Response :=
  try_catch
    (await users := db_select in
     await total := db_count in
     await _ := response_set "X-Total-Count" (pretty total) in
     if Nat.eqb total 0
     then response_status_json 404 (JMessage "There are no users in the database.")
     else response_status_json 200 (JUsers users))
    (λ err,
     await _ := console_error err in
     response_status_json 500 (JMessage "Error when trying to access Users in the database.")).

Definition show (request : Request.t) : Async Response :=
  let id := Request.id request in
  try_catch
    (await user := db_where_first id in
     match user with
     | None =>
         response_status_json 404 (JMessage ("User with ID " +:+ id +:+ " not found in the database."))
     | Some user => response_status_json 200 (JUser user)
     end)
    (λ err,
     await _ := console_error err in
     response_status_json 500
       (JMessage ("Error when trying to access User with ID " +:+ id +:+ " in the database."))).

Section Create.

(** [validate] of the [email-validator] package, applied to whatever the body
    holds as [email]. *)
Variable validate : option string → bool.

Definition create (request : Request.t) : Async Response :=
  let '(Request.mkBody name phone email age weight) := Request.body_of request in
  if negb (validate email)
  then response_status_json 400
         (JMessage ("The email " +:+ interpolate email +:+ " is not in a valid format."))
  else
    try_catch
      (await bytes := randomBytes 4 in
       let id := toString_hex bytes in
       let new_user := User.mk id name phone email age weight in
       await _ := db_insert new_user in
       response_status_json 201 (JMessage ("User with ID " +:+ id +:+ " was created.")))
      (λ err,
       await _ := console_error err in
       response_status_json 500 (JMessage "Error when trying to insert new User in the database.")).

End Create.

Definition change (request : Request.t) : Async Response :=
  let id := Request.id request in
  let '(Request.mkBody name phone email age weight) := Request.body_of request in
  try_catch
    (await user := db_where_first id in
     match user with
     | None =>
         response_status_json 404 (JMessage ("User with ID " +:+ id +:+ " not found to be changed."))
     | Some _ =>
         try_catch
           (await _ := db_where_update id (Request.mkBody name phone email age weight) in
            response_status_json 200 (JMessage ("User with ID " +:+ id +:+ " was updated.")))
           (λ err,
            response_status_json 500 (JMessage ("Could not update User with ID " +:+ id +:+ ".")))
     end)
    (λ err,
     await _ := console_error err in
     response_status_json 500
       (JMessage ("Error when trying to access User with ID " +:+ id +:+ " in the database."))).

Definition remove (request : Request.t) : Async Response :=
  let id := Request.id request in
  try_catch
    (await user := db_where_first id in
     match user with
     | None =>
         response_status_json 404 (JMessage ("User with ID " +:+ id +:+ " was not found to be deleted."))
     | Some _ =>
         try_catch
           (await _ := db_where_delete id in
            response_status_json 200 (JMessage ("User with ID " +:+ id +:+ " deleted. ")))
           (λ err,
            await _ := console_error err in
            response_status_json 500 (JMessage ("Could not delete User with ID " +:+ id +:+ ".")))
     end)
    (λ err,
     await _ := console_error err in
     response_status_json 500
       (JMessage ("Error when trying to access User with ID " +:+ id +:+ " in the database."))).

(** ** Notions used in the statements *)

(** Express hands every request a response object of its own. *)
Definition next_request (s : State) : State := set_response fresh_response s.

(** A handler logs its failure when each of its 500 responses comes with one
    more line on the console. *)
Definition logs_failure (handler : Async Response) (s : State) : Prop :=
  ∀ r s', handler s = (Return r, s') → statusCode r = 500 →
    ∃ err, console s' = (console s ++ [err])%list.

(** The request with another [email] in its body. *)
Definition with_email (email : option string) (request : Request.t) : Request.t :=
  let b := Request.body_of request in
  Request.mk (Request.id request)
    (Request.mkBody (Request.name b) (Request.phone b) email
                    (Request.age b) (Request.weight b)).

(** A handler answers within [codes] when it returns (no error escapes it)
    the response object, with one of those status codes and a JSON body. *)
Definition answers (handler : Async Response) (s : State) (codes : list nat) : Prop :=
  ∃ r s', handler s = (Return r, s') ∧ response s' = r ∧
    statusCode r ∈ codes ∧ is_Some (sent r).

(** A handler gives up on a store failure when it answers 500 with
    [message], prints that failure, leaves the table alone and has issued
    one query only. *)
Definition gives_up (handler : Async Response) (s : State) (message : string) : Prop :=
  ∃ r s', handler s = (Return r, s') ∧ response s' = r ∧
    statusCode r = 500 ∧ sent r = Some (JMessage message) ∧
    console s' = (console s ++ [StoreFailure])%list ∧
    users_table s' = users_table s ∧
    faults s' = tail (faults s).

(** A handler writes on success only when each response of it with a status
    of 400 or more comes with the table as it was. *)
Definition writes_on_success_only (handler : Async Response) (s : State) : Prop :=
  ∀ r s', handler s = (Return r, s') → (400 ≤ statusCode r)%nat →
    users_table s' = users_table s.

(** A handler issues [n] queries when it consumes that much of the fault
    schedule. *)
Definition issues (handler : Async Response) (s : State) (n : nat) : Prop :=
  faults (handler s).2 = drop n (faults s).

(** Reading a hexadecimal token back, used to show that no two byte
    sequences share a token. *)
Definition hex_value (c : Ascii.ascii) : option N :=
  (λ i, N.of_nat i.1) <$>
    list_find (λ d, d = c) (String.list_ascii_of_string "0123456789abcdef").

Definition byte_of_hex (hi lo : Ascii.ascii) : option Byte.byte :=
  match hex_value hi, hex_value lo with
  | Some h, Some l => Byte.of_N (16 * h + l)
  | _, _ => None
  end.

Fixpoint from_hex (token : string) : option (list Byte.byte) :=
  match token with
  | EmptyString => Some []
  | String hi (String lo rest) =>
      match byte_of_hex hi lo, from_hex rest with
      | Some b, Some bs => Some (b :: bs)
      | _, _ => None
      end
  | String _ EmptyString => None
  end.

(** ** Sample data *)

(** A stand-in for the package's syntax check, used to run [create] on
    examples: one ["@"], after at least one character, and a ["."] further
    on. *)
Fixpoint after_at (seen_at seen_dot : bool) (s : string) : bool :=
  match s with
  | EmptyString => seen_at && seen_dot
  | String c s =>
      if Ascii.eqb c "@" then negb seen_at && after_at true false s
      else if Ascii.eqb c "." then after_at seen_at seen_at s
      else after_at seen_at seen_dot s
  end.

Definition sample_validate (email : option string) : bool :=
  match email with
  | Some (String c s) => negb (Ascii.eqb c "@") && after_at false false s
  | _ => false
  end.

Definition ana : User.t :=
  User.mk "00c0ffee" (Some "Ana") (Some "555-0100") (Some "ana@example.com")
          (Some 31%float) (Some 58.5%float).

Definition bob : User.t :=
  User.mk "0badf00d" (Some "Bob") (Some "555-0199") (Some "bob@example.com")
          (Some 44%float) (Some 80.25%float).

Definition sample_entropy (n : nat) : Byte.byte :=
  nth n [Byte.xde; Byte.xad; Byte.xbe; Byte.xef] Byte.x2a.

(** A state at the start of a request: the given rows and fault schedule, an
    untouched response, nothing drawn or printed yet. *)
Definition at_start (rows : list User.t) (schedule : list bool) : State :=
  mkState rows schedule sample_entropy 0 [] fresh_response.

Definition a_body (email : option string) : Request.body :=
  Request.mkBody (Some "Cleo") None email (Some 27%float) (Some 61%float).

Definition a_request (id : string) (email : option string) : Request.t :=
  Request.mk id (a_body email).

(** A row that already has the id the sample random source gives next. *)
Definition dee : User.t :=
  User.mk "deadbeef" (Some "Dee") (Some "555-0142") (Some "dee@example.com")
          (Some 52%float) (Some 70%float).

(** ** Stepping through a handler *)

Lemma fault_at_set_drawn k n s : fault_at k (set_drawn n s) = fault_at k s.
Proof. done. Qed.

Lemma where_id_spec id u : where_id id u = true ↔ User.id u = id.
Proof. unfold where_id. apply bool_decide_eq_true. Qed.

Lemma find_where_id id us u :
  find (where_id id) us = Some u → User.id u = id ∧ u ∈ us.
Proof.
  intros H. apply find_some in H as [Hin Hid].
  split; [by apply where_id_spec | by apply list_elem_of_In].
Qed.

Lemma existsb_where_id id us :
  existsb (where_id id) us = false ↔ id ∉ User.id <$> us.
Proof.
  induction us as [|u us IH]; simpl.
  - split; [intros _; apply not_elem_of_nil | done].
  - rewrite orb_false_iff, IH, not_elem_of_cons.
    unfold where_id. rewrite bool_decide_eq_false.
    split; (intros [Hne Hnin]; split; [congruence | exact Hnin]).
Qed.

(** ** Hexadecimal tokens *)

Lemma byte_hex_digits b :
  forallb is_hex_digit (String.list_ascii_of_string (byte_hex b)) = true.
Proof. destruct b; vm_compute; reflexivity. Qed.

Lemma toString_hex_cons b bs :
  toString_hex (b :: bs) =
    String (hex_digit (Byte.to_N b / 16))
      (String (hex_digit (Byte.to_N b mod 16)) (toString_hex bs)).
Proof. done. Qed.

Lemma toString_hex_length bs : String.length (toString_hex bs) = 2 * length bs.
Proof.
  induction bs as [|b bs IH]; [done|].
  rewrite toString_hex_cons. simpl in *. lia.
Qed.

Lemma toString_hex_digits bs :
  forallb is_hex_digit (String.list_ascii_of_string (toString_hex bs)) = true.
Proof.
  induction bs as [|b bs IH]; [done|].
  rewrite toString_hex_cons. pose proof (byte_hex_digits b) as Hb.
  unfold byte_hex in Hb. simpl in Hb |- *.
  apply andb_true_iff in Hb as [H1 Hb]. apply andb_true_iff in Hb as [H2 _].
  rewrite H1; rewrite H2; rewrite IH; reflexivity.
Qed.

Lemma byte_of_hex_byte_hex b :
  byte_of_hex (hex_digit (Byte.to_N b / 16)) (hex_digit (Byte.to_N b mod 16)) = Some b.
Proof. destruct b; vm_compute; reflexivity. Qed.

Lemma from_hex_toString_hex bs : from_hex (toString_hex bs) = Some bs.
Proof.
  induction bs as [|b bs IH]; [done|].
  rewrite toString_hex_cons.
  change (match byte_of_hex (hex_digit (Byte.to_N b / 16))
                  (hex_digit (Byte.to_N b mod 16)),
                from_hex (toString_hex bs) with
          | Some b', Some bs' => Some (b' :: bs')
          | _, _ => None
          end = Some (b :: bs)).
  by rewrite byte_of_hex_byte_hex, IH.
Qed.

(** ** The list and get-one handlers *)

(** What [index] does, by the outcome of its two queries. *)
Lemma index_run (request : Request.t) (s : State) :
  let k := length (users_table s) in
  let s0 := set_faults (tail (faults s)) s in
  let s1 := set_faults (tail (faults s0)) s0 in
  index request s =
    if fault_at 0 s
    then response_status_json 500 (JMessage "Error when trying to access Users in the database.")
           (set_console (console s ++ [StoreFailure])%list s0)
    else if fault_at 1 s
    then response_status_json 500 (JMessage "Error when trying to access Users in the database.")
           (set_console (console s ++ [StoreFailure])%list s1)
    else
      let r := mkResponse (if Nat.eqb k 0 then 404 else 200)
                 (<["X-Total-Count" := pretty k]> (headers (response s)))
                 (Some (if Nat.eqb k 0
                        then JMessage "There are no users in the database."
                        else JUsers (users_table s))) in
      (Return r, set_response r s1).
Proof.
  unfold index, try_catch, bind, db_select, db_count, query, fault_at.
  destruct s as [us fs en d c r]; simpl.
  destruct fs as [|[] [|[] fs]]; simpl; try reflexivity;
    by destruct (Nat.eqb (length us) 0).
Qed.

(** C3: when both queries of [index] succeed, an empty table gives 404 with
    the message that there are no users, and a table of [k > 0] rows gives 200
    with those [k] rows as the body; in both cases [X-Total-Count] is [k]. *)
Theorem index_lists_all_users (request : Request.t) (s : State) :
  let k := length (users_table s) in
  fault_at 0 s = false →
  fault_at 1 s = false →
  ∃ r s', index request s = (Return r, s') ∧ response s' = r ∧
    headers r !! "X-Total-Count" = Some (pretty k) ∧
    (k = 0 →
     statusCode r = 404 ∧
     sent r = Some (JMessage "There are no users in the database.")) ∧
    (0 < k →
     statusCode r = 200 ∧
     ∃ us, sent r = Some (JUsers us) ∧ us = users_table s ∧ length us = k).
Proof.
  intros k H0 H1. rewrite index_run, H0, H1. fold k.
  eexists _, _. split; [reflexivity|]. split; [reflexivity|]. simpl.
  split; [apply lookup_insert_eq|].
  split; intros Hk.
  - by rewrite Hk.
  - assert (Nat.eqb k 0 = false) as -> by (apply Nat.eqb_neq; lia).
    split; [done|]. by exists (users_table s).
Qed.

Lemma index_lists_all_users_witness :
  fault_at 0 (at_start [ana; bob] []) = false ∧
  fault_at 1 (at_start [ana; bob] []) = false ∧
  ∃ r s', index (a_request "" None) (at_start [ana; bob] []) = (Return r, s') ∧
    statusCode r = 200 ∧
    sent r = Some (JUsers [ana; bob]) ∧
    headers r !! "X-Total-Count" = Some "2".
Proof.
  split; [reflexivity|]. split; [reflexivity|].
  destruct (index_lists_all_users (a_request "" None) (at_start [ana; bob] [])
              eq_refl eq_refl)
    as (r & s' & Hrun & _ & Hcount & _ & Hrows).
  destruct Hrows as (Hstatus & us & Hsent & Hus & _); [simpl; lia|].
  exists r, s'. subst us. repeat split; assumption.
Defined.

(** The store failing on the first query of [index]: the response is 500 and
    has no [X-Total-Count] header. *)
Lemma index_store_failure_has_no_count :
  ∃ r s', index (a_request "" None) (at_start [ana; bob] [true]) = (Return r, s') ∧
    statusCode r = 500 ∧
    headers r !! "X-Total-Count" = None.
Proof. eexists _, _. split; [reflexivity|]. split; reflexivity. Qed.

(** C4, amended: [index] always responds, with 200, 404 or 500.  Its 200 and
    404 responses carry [X-Total-Count] with the number of rows of the table;
    its 500 response is sent with the headers the response already had, the
    handler having set none. *)
Theorem index_count_header (request : Request.t) (s : State) :
  ∃ r s', index request s = (Return r, s') ∧ response s' = r ∧
    (statusCode r = 200 ∨ statusCode r = 404 ∨ statusCode r = 500) ∧
    (statusCode r = 200 ∨ statusCode r = 404 →
     headers r !! "X-Total-Count" = Some (pretty (length (users_table s)))) ∧
    (statusCode r = 500 →
     (fault_at 0 s = true ∨ fault_at 1 s = true) ∧
     headers r = headers (response s)).
Proof.
  rewrite index_run.
  destruct (fault_at 0 s) eqn:H0; [|destruct (fault_at 1 s) eqn:H1].
  - eexists _, _. split; [reflexivity|]. split; [reflexivity|]. simpl.
    split; [auto|]. split; [intros [?|?]; discriminate|]. auto.
  - eexists _, _. split; [reflexivity|]. split; [reflexivity|]. simpl.
    split; [auto|]. split; [intros [?|?]; discriminate|]. auto.
  - eexists _, _. split; [reflexivity|]. split; [reflexivity|]. simpl.
    split; [destruct (Nat.eqb _ 0); auto|].
    split; [intros _; apply lookup_insert_eq|].
    destruct (Nat.eqb _ 0); discriminate.
Qed.

(** What [show] does, by the outcome of its query. *)
Lemma show_run (request : Request.t) (s : State) :
  let id := Request.id request in
  let s0 := set_faults (tail (faults s)) s in
  show request s =
    if fault_at 0 s
    then response_status_json 500
           (JMessage ("Error when trying to access User with ID " +:+ id +:+ " in the database."))
           (set_console (console s ++ [StoreFailure])%list s0)
    else match find (where_id id) (users_table s) with
         | None =>
             response_status_json 404
               (JMessage ("User with ID " +:+ id +:+ " not found in the database.")) s0
         | Some user => response_status_json 200 (JUser user) s0
         end.
Proof.
  unfold show, try_catch, bind, db_where_first, query, fault_at.
  destruct s as [us fs en d c r]; simpl.
  destruct fs as [|[] fs]; simpl; try reflexivity;
    by destruct (find _ us).
Qed.

(** C10: [index] and [show] are read-only.  For every request and every
    state, each of them returns a response and leaves the [users] table as it
    found it, whether the queries succeed or fail. *)
Theorem index_show_read_only (request : Request.t) (s : State) :
  (∃ r, (index request s).1 = Return r) ∧
  users_table (index request s).2 = users_table s ∧
  (∃ r, (show request s).1 = Return r) ∧
  users_table (show request s).2 = users_table s.
Proof.
  rewrite index_run, show_run.
  destruct (fault_at 0 s); [|destruct (fault_at 1 s)];
    try destruct (find (where_id _) _); repeat split; by eexists.
Qed.

(** ** The create handler *)

(** What [create] does, by the verdict on the email and the outcome of the
    insert. *)
Lemma create_run (validate : option string → bool) (request : Request.t) (s : State) :
  let b := Request.body_of request in
  let id := toString_hex (entropy s <$> seq (drawn s) 4) in
  let new_user :=
    User.mk id (Request.name b) (Request.phone b) (Request.email b)
            (Request.age b) (Request.weight b) in
  let s1 := set_faults (tail (faults s)) (set_drawn (drawn s + 4) s) in
  create validate request s =
    if validate (Request.email b)
    then
      if fault_at 0 s
      then response_status_json 500
             (JMessage "Error when trying to insert new User in the database.")
             (set_console (console s ++ [StoreFailure])%list s1)
      else if existsb (where_id id) (users_table s)
      then response_status_json 500
             (JMessage "Error when trying to insert new User in the database.")
             (set_console (console s ++ [UniqueViolation id])%list s1)
      else response_status_json 201 (JMessage ("User with ID " +:+ id +:+ " was created."))
             (set_users (users_table s ++ [new_user])%list s1)
    else response_status_json 400
           (JMessage ("The email " +:+ interpolate (Request.email b) +:+
                      " is not in a valid format.")) s.
Proof.
  unfold create. destruct (Request.body_of request) as [name phone email age weight].
  simpl. destruct (validate email); simpl; [|done].
  unfold try_catch, bind, randomBytes, db_insert, query, fault_at.
  destruct s as [us fs en d c r]; simpl.
  destruct fs as [|[] fs]; simpl; try reflexivity;
    by destruct (existsb _ us).
Qed.

(** The insert succeeds exactly when the store does not fail on it and no
    row has the new id. *)
Lemma db_insert_succeeds (new_user : User.t) (s : State) :
  (db_insert new_user s).1 = Return () ↔
  fault_at 0 s = false ∧ User.id new_user ∉ User.id <$> users_table s.
Proof.
  rewrite <- existsb_where_id. unfold db_insert, query.
  destruct (fault_at 0 s); simpl; [split; [done | intros [? _]; done]|].
  destruct (existsb _ _); simpl; [split; [done | intros [_ ?]; done] | done].
Qed.

(** C1: a create request whose email fails the syntax check is answered 400
    with the message naming the email as it interpolates, and nothing else
    happens: the table is as before, no query was issued, no random byte was
    drawn (so no id was made), and nothing was logged. *)
Theorem create_rejects_invalid_email
    (validate : option string → bool) (request : Request.t) (s : State) :
  let email := Request.email (Request.body_of request) in
  validate email = false →
  ∃ r s', create validate request s = (Return r, s') ∧ response s' = r ∧
    statusCode r = 400 ∧
    sent r = Some (JMessage ("The email " +:+ interpolate email +:+
                             " is not in a valid format.")) ∧
    users_table s' = users_table s ∧
    faults s' = faults s ∧
    drawn s' = drawn s ∧
    console s' = console s.
Proof.
  intros email Hbad. rewrite create_run. fold email. rewrite Hbad.
  eexists _, _. split; [reflexivity|]. by repeat split.
Qed.

Lemma create_rejects_invalid_email_witness :
  sample_validate (Some "not-an-email") = false ∧
  ∃ r s', create sample_validate (a_request "" (Some "not-an-email"))
            (at_start [ana; bob] []) = (Return r, s') ∧
    statusCode r = 400 ∧
    sent r = Some (JMessage "The email not-an-email is not in a valid format.") ∧
    users_table s' = [ana; bob] ∧
    drawn s' = 0.
Proof.
  split; [reflexivity|].
  destruct (create_rejects_invalid_email sample_validate
              (a_request "" (Some "not-an-email")) (at_start [ana; bob] []) eq_refl)
    as (r & s' & Hrun & _ & Hstatus & Hsent & Husers & _ & Hdrawn & _).
  exists r, s'. repeat split; assumption.
Defined.

(** C2: a create request whose email passes the syntax check and whose insert
    succeeds is answered 201 with the message containing the new id.  The id
    is the hexadecimal form of the next four bytes of the random source:
    eight hexadecimal digits that read back as exactly those four bytes, so
    that no other four bytes give the same id.  Those bytes are consumed, no
    row had that id, and the table gains exactly one row, at its end: that id
    with the body's name, phone, email, age and weight. *)
Theorem create_inserts_new_user
    (validate : option string → bool) (request : Request.t) (s : State) :
  let b := Request.body_of request in
  let bytes := entropy s <$> seq (drawn s) 4 in
  let id := toString_hex bytes in
  let new_user :=
    User.mk id (Request.name b) (Request.phone b) (Request.email b)
            (Request.age b) (Request.weight b) in
  validate (Request.email b) = true →
  (db_insert new_user (set_drawn (drawn s + 4) s)).1 = Return () →
  ∃ r s', create validate request s = (Return r, s') ∧ response s' = r ∧
    statusCode r = 201 ∧
    sent r = Some (JMessage ("User with ID " +:+ id +:+ " was created.")) ∧
    users_table s' = (users_table s ++ [new_user])%list ∧
    length (users_table s') = S (length (users_table s)) ∧
    String.length id = 8 ∧
    forallb is_hex_digit (String.list_ascii_of_string id) = true ∧
    from_hex id = Some bytes ∧
    (∀ bs, toString_hex bs = id → bs = bytes) ∧
    drawn s' = drawn s + 4 ∧
    id ∉ User.id <$> users_table s.
Proof.
  intros b bytes id new_user Hgood Hins.
  apply db_insert_succeeds in Hins as [Hfault Hfresh].
  rewrite fault_at_set_drawn in Hfault.
  change (id ∉ User.id <$> users_table s) in Hfresh.
  assert (String.length id = 8) as Hlen.
  { unfold id, bytes. by rewrite toString_hex_length, length_fmap, length_seq. }
  pose proof (toString_hex_digits bytes) as Hhex. fold id in Hhex.
  pose proof (from_hex_toString_hex bytes) as Hback. fold id in Hback.
  assert (∀ bs, toString_hex bs = id → bs = bytes) as Honly.
  { intros bs Hbs. apply (f_equal from_hex) in Hbs.
    rewrite from_hex_toString_hex, Hback in Hbs. by injection Hbs. }
  rewrite create_run. fold b bytes id new_user. rewrite Hgood, Hfault.
  apply existsb_where_id in Hfresh as Hno. rewrite Hno.
  eexists _, _. split; [reflexivity|]. split; [reflexivity|].
  split; [reflexivity|]. split; [reflexivity|]. split; [reflexivity|].
  split; [cbn [users_table response_status_json set_users set_response snd];
          rewrite length_app; simpl; lia|].
  by repeat split.
Qed.

Lemma create_inserts_new_user_witness :
  sample_validate (Some "a@b.com") = true ∧
  (∃ r s', create sample_validate (a_request "" (Some "a@b.com"))
             (at_start [ana; bob] []) = (Return r, s') ∧
     statusCode r = 201 ∧
     sent r = Some (JMessage "User with ID deadbeef was created.") ∧
     users_table s' =
       [ana; bob;
        User.mk "deadbeef" (Some "Cleo") None (Some "a@b.com")
                (Some 27%float) (Some 61%float)]) ∧
  (∃ r s', create sample_validate (a_request "" (Some "a@b.com"))
             (set_drawn 2 (at_start [ana; bob] [])) = (Return r, s') ∧
     statusCode r = 201 ∧
     sent r = Some (JMessage "User with ID beef2a2a was created.") ∧
     drawn s' = 6).
Proof.
  split; [reflexivity|]. split.
  - destruct (create_inserts_new_user sample_validate
                (a_request "" (Some "a@b.com")) (at_start [ana; bob] [])
                eq_refl eq_refl)
      as (r & s' & Hrun & _ & Hstatus & Hsent & Husers & _).
    exists r, s'. repeat split; assumption.
  - destruct (create_inserts_new_user sample_validate
                (a_request "" (Some "a@b.com")) (set_drawn 2 (at_start [ana; bob] []))
                eq_refl eq_refl)
      as (r & s' & Hrun & _ & Hstatus & Hsent & _ & _ & _ & _ & _ & _ & Hdrawn & _).
    exists r, s'. repeat split; assumption.
Defined.

(** ** The update and delete handlers *)

Lemma where_id_overwrite id b u : where_id id (overwrite b u) = where_id id u.
Proof. done. Qed.

Lemma find_updated id b us :
  find (where_id id) (updated id b us) = overwrite b <$> find (where_id id) us.
Proof.
  induction us as [|u us IH]; [done|].
  unfold updated in *. rewrite fmap_cons. simpl.
  destruct (where_id id u) eqn:Hu.
  - by rewrite where_id_overwrite, Hu.
  - by rewrite Hu.
Qed.

Lemma updated_rows id b us u :
  u ∈ updated id b us → User.id u = id → u = overwrite b u.
Proof.
  unfold updated. intros Hin Hid. apply list_elem_of_fmap in Hin as (v & -> & _).
  destruct (where_id id v) eqn:Hv; [done|].
  apply where_id_spec in Hid. congruence.
Qed.

Lemma find_deleted id us : find (where_id id) (deleted id us) = None.
Proof.
  induction us as [|u us IH]; [done|].
  unfold deleted in *. simpl. destruct (where_id id u) eqn:Hu; simpl; [done|].
  by rewrite Hu.
Qed.

Lemma elem_of_deleted id us u : u ∈ deleted id us ↔ u ∈ us ∧ User.id u ≠ id.
Proof.
  unfold deleted. rewrite !list_elem_of_In, filter_In, negb_true_iff.
  unfold where_id. by rewrite bool_decide_eq_false.
Qed.

(** What [change] does, by the outcome of its queries. *)
Lemma change_run (request : Request.t) (s : State) :
  let id := Request.id request in
  let b := Request.body_of request in
  let s0 := set_faults (tail (faults s)) s in
  let s1 := set_faults (tail (faults s0)) s0 in
  change request s =
    if fault_at 0 s
    then response_status_json 500
           (JMessage ("Error when trying to access User with ID " +:+ id +:+ " in the database."))
           (set_console (console s ++ [StoreFailure])%list s0)
    else match find (where_id id) (users_table s) with
         | None =>
             response_status_json 404
               (JMessage ("User with ID " +:+ id +:+ " not found to be changed.")) s0
         | Some _ =>
             if fault_at 1 s
             then response_status_json 500
                    (JMessage ("Could not update User with ID " +:+ id +:+ ".")) s1
             else response_status_json 200
                    (JMessage ("User with ID " +:+ id +:+ " was updated."))
                    (set_users (updated id b (users_table s)) s1)
         end.
Proof.
  unfold change. destruct (Request.body_of request) as [name phone email age weight].
  unfold try_catch, bind, db_where_first, db_where_update, query, fault_at, updated.
  destruct s as [us fs en d c r]; simpl.
  destruct fs as [|[] [|[] fs]]; simpl; try reflexivity;
    by destruct (find _ us).
Qed.

(** What [remove] does, by the outcome of its queries. *)
Lemma remove_run (request : Request.t) (s : State) :
  let id := Request.id request in
  let s0 := set_faults (tail (faults s)) s in
  let s1 := set_faults (tail (faults s0)) s0 in
  remove request s =
    if fault_at 0 s
    then response_status_json 500
           (JMessage ("Error when trying to access User with ID " +:+ id +:+ " in the database."))
           (set_console (console s ++ [StoreFailure])%list s0)
    else match find (where_id id) (users_table s) with
         | None =>
             response_status_json 404
               (JMessage ("User with ID " +:+ id +:+ " was not found to be deleted.")) s0
         | Some _ =>
             if fault_at 1 s
             then response_status_json 500
                    (JMessage ("Could not delete User with ID " +:+ id +:+ "."))
                    (set_console (console s ++ [StoreFailure])%list s1)
             else response_status_json 200
                    (JMessage ("User with ID " +:+ id +:+ " deleted. "))
                    (set_users (deleted id (users_table s)) s1)
         end.
Proof.
  unfold remove, try_catch, bind, db_where_first, db_where_delete, query, fault_at, deleted.
  destruct s as [us fs en d c r]; simpl.
  destruct fs as [|[] [|[] fs]]; simpl; try reflexivity;
    by destruct (find _ us).
Qed.

(** The third query from now is the first one after two were consumed. *)
Lemma fault_at_after_two (s : State) (us : list User.t) (r : Response) :
  let s0 := set_faults (tail (faults s)) s in
  let s1 := set_faults (tail (faults s0)) s0 in
  fault_at 0 (next_request (set_response r (set_users us s1))) = fault_at 2 s.
Proof.
  unfold fault_at; simpl. by destruct (faults s) as [|f0 [|f1 fs]].
Qed.

(** C5: an update request whose id matches no row, the lookup having
    succeeded, is answered 404 with the message naming the id.  The lookup is
    the only query issued, and the table is as before: nothing is written and
    no row appears. *)
Theorem change_unknown_id (request : Request.t) (s : State) :
  let id := Request.id request in
  fault_at 0 s = false →
  find (where_id id) (users_table s) = None →
  ∃ r s', change request s = (Return r, s') ∧ response s' = r ∧
    statusCode r = 404 ∧
    sent r = Some (JMessage ("User with ID " +:+ id +:+ " not found to be changed.")) ∧
    users_table s' = users_table s ∧
    faults s' = tail (faults s).
Proof.
  intros id H0 Hnone. rewrite change_run. fold id. rewrite H0, Hnone.
  eexists _, _. split; [reflexivity|]. by repeat split.
Qed.

Lemma change_unknown_id_witness :
  fault_at 0 (at_start [ana; bob] []) = false ∧
  find (where_id "0badf00e") [ana; bob] = None ∧
  ∃ r s', change (a_request "0badf00e" (Some "cleo@example.com"))
            (at_start [ana; bob] []) = (Return r, s') ∧
    statusCode r = 404 ∧
    sent r = Some (JMessage "User with ID 0badf00e not found to be changed.") ∧
    users_table s' = [ana; bob].
Proof.
  split; [reflexivity|]. split; [reflexivity|].
  destruct (change_unknown_id (a_request "0badf00e" (Some "cleo@example.com"))
              (at_start [ana; bob] []) eq_refl eq_refl)
    as (r & s' & Hrun & _ & Hstatus & Hsent & Husers & _).
  exists r, s'. repeat split; assumption.
Defined.

(** C6: an update request whose id matches a row, lookup and update having
    succeeded, is answered 200 with the message naming the id.  Every row with
    that id then holds exactly the body's name, phone, email, age and weight,
    an attribute missing from the body being stored as missing; the rows with
    another id are kept.  A get-one on that id, served next, answers 200 with
    the id and the five attributes of the body. *)
Theorem change_overwrites_all_fields (request : Request.t) (s : State) (u : User.t) :
  let id := Request.id request in
  let b := Request.body_of request in
  fault_at 0 s = false →
  find (where_id id) (users_table s) = Some u →
  fault_at 1 s = false →
  ∃ r s', change request s = (Return r, s') ∧ response s' = r ∧
    statusCode r = 200 ∧
    sent r = Some (JMessage ("User with ID " +:+ id +:+ " was updated.")) ∧
    users_table s' = updated id b (users_table s) ∧
    (∀ v, v ∈ users_table s' → User.id v = id →
       User.name v = Request.name b ∧ User.phone v = Request.phone b ∧
       User.email v = Request.email b ∧ User.age v = Request.age b ∧
       User.weight v = Request.weight b) ∧
    (∀ v, User.id v ≠ id → v ∈ users_table s' ↔ v ∈ users_table s) ∧
    (fault_at 2 s = false →
     ∀ request', Request.id request' = id →
       ∃ r2 s2, show request' (next_request s') = (Return r2, s2) ∧
         statusCode r2 = 200 ∧
         sent r2 = Some (JUser (User.mk id (Request.name b) (Request.phone b)
                                  (Request.email b) (Request.age b)
                                  (Request.weight b)))).
Proof.
  intros id b H0 Hsome H1. rewrite change_run. fold id b. rewrite H0, Hsome, H1.
  eexists _, _. split; [reflexivity|]. split; [reflexivity|].
  split; [reflexivity|]. split; [reflexivity|]. split; [reflexivity|].
  cbn [response_status_json snd users_table set_response set_users].
  split; [|split].
  - intros v Hv Hid. apply updated_rows in Hv; [|done]. by rewrite Hv.
  - intros v Hid. unfold updated. rewrite list_elem_of_fmap. split.
    + intros (w & -> & Hw). destruct (where_id id w) eqn:E; [|done].
      apply where_id_spec in E. done.
    + intros Hv. exists v. split; [|done].
      destruct (where_id id v) eqn:E; [|done].
      apply where_id_spec in E. done.
  - intros H2 request' Hid'. rewrite show_run, Hid'.
    rewrite fault_at_after_two, H2.
    cbn [users_table next_request set_response set_users].
    rewrite find_updated, Hsome. simpl.
    apply find_where_id in Hsome as [Hu _].
    eexists _, _. split; [reflexivity|]. split; [reflexivity|].
    unfold overwrite. by rewrite Hu.
Qed.

Lemma change_overwrites_all_fields_witness :
  fault_at 0 (at_start [ana; bob] []) = false ∧
  find (where_id "0badf00d") [ana; bob] = Some bob ∧
  fault_at 1 (at_start [ana; bob] []) = false ∧
  ∃ r s', change (a_request "0badf00d" (Some "cleo@example.com"))
            (at_start [ana; bob] []) = (Return r, s') ∧
    statusCode r = 200 ∧
    sent r = Some (JMessage "User with ID 0badf00d was updated.") ∧
    ∃ r2 s2, show (a_request "0badf00d" None) (next_request s') = (Return r2, s2) ∧
      statusCode r2 = 200 ∧
      sent r2 = Some (JUser (User.mk "0badf00d" (Some "Cleo") None
                               (Some "cleo@example.com")
                               (Some 27%float) (Some 61%float))).
Proof.
  split; [reflexivity|]. split; [reflexivity|]. split; [reflexivity|].
  destruct (change_overwrites_all_fields
              (a_request "0badf00d" (Some "cleo@example.com"))
              (at_start [ana; bob] []) bob eq_refl eq_refl eq_refl)
    as (r & s' & Hrun & _ & Hstatus & Hsent & _ & _ & _ & Hshow).
  exists r, s'. repeat split; try assumption.
  exact (Hshow eq_refl (a_request "0badf00d" None) eq_refl).
Defined.

Ltac settle_logged :=
  intros r s' Hrun Hstatus; simpl in Hrun;
  injection Hrun as <- <-; simpl in *;
  first [discriminate | by eexists].

(** C7: when the lookup of [change] finds the row and the update then fails,
    the answer is 500 with the message naming the id and the console is as
    before.  It is the only silent failure: [index], [show], [create] and
    [remove] log on each of their 500 responses, and so does [change] when
    its lookup is what failed; a 500 of [change] after a lookup that
    succeeded is the update failing, and is not logged. *)
Theorem change_update_failure_not_logged
    (validate : option string → bool) (request : Request.t) (s : State) :
  let id := Request.id request in
  (∀ u, fault_at 0 s = false →
        find (where_id id) (users_table s) = Some u →
        fault_at 1 s = true →
        ∃ r s', change request s = (Return r, s') ∧ response s' = r ∧
          statusCode r = 500 ∧
          sent r = Some (JMessage ("Could not update User with ID " +:+ id +:+ ".")) ∧
          console s' = console s) ∧
  logs_failure (index request) s ∧
  logs_failure (show request) s ∧
  logs_failure (create validate request) s ∧
  logs_failure (remove request) s ∧
  (fault_at 0 s = true → logs_failure (change request) s) ∧
  (fault_at 0 s = false →
   ∀ r s', change request s = (Return r, s') → statusCode r = 500 →
     is_Some (find (where_id id) (users_table s)) ∧ fault_at 1 s = true ∧
     sent r = Some (JMessage ("Could not update User with ID " +:+ id +:+ ".")) ∧
     console s' = console s).
Proof.
  intros id. repeat apply conj.
  - intros u H0 Hsome H1. rewrite change_run. fold id. rewrite H0, Hsome, H1.
    eexists _, _. split; [reflexivity|]. by repeat split.
  - unfold logs_failure. rewrite index_run.
    destruct (fault_at 0 s); [|destruct (fault_at 1 s)]; try settle_logged.
    intros r s' Hrun Hstatus. injection Hrun as <- <-. simpl in Hstatus.
    by destruct (Nat.eqb _ 0).
  - unfold logs_failure. rewrite show_run.
    destruct (fault_at 0 s); [|destruct (find _ _)]; settle_logged.
  - unfold logs_failure. rewrite create_run.
    destruct (validate _); [|settle_logged].
    destruct (fault_at 0 s); [|destruct (existsb _ _)]; settle_logged.
  - unfold logs_failure. rewrite remove_run.
    destruct (fault_at 0 s); [|destruct (find _ _); [destruct (fault_at 1 s)|]];
      settle_logged.
  - intros H0. unfold logs_failure. rewrite change_run, H0. settle_logged.
  - intros H0 r s'. rewrite change_run. fold id. rewrite H0.
    destruct (find _ _); [destruct (fault_at 1 s)|];
      intros Hrun Hstatus; injection Hrun as <- <-; simpl in *;
      try discriminate.
    by repeat split.
Qed.

Lemma change_update_failure_not_logged_witness :
  fault_at 0 (at_start [ana; bob] [false; true]) = false ∧
  find (where_id "0badf00d") [ana; bob] = Some bob ∧
  fault_at 1 (at_start [ana; bob] [false; true]) = true ∧
  ∃ r s', change (a_request "0badf00d" (Some "cleo@example.com"))
            (at_start [ana; bob] [false; true]) = (Return r, s') ∧
    statusCode r = 500 ∧
    sent r = Some (JMessage "Could not update User with ID 0badf00d.") ∧
    console s' = [].
Proof.
  split; [reflexivity|]. split; [reflexivity|]. split; [reflexivity|].
  destruct (change_update_failure_not_logged sample_validate
              (a_request "0badf00d" (Some "cleo@example.com"))
              (at_start [ana; bob] [false; true])) as [Hinner _].
  destruct (Hinner bob eq_refl eq_refl eq_refl)
    as (r & s' & Hrun & _ & Hstatus & Hsent & Hconsole).
  exists r, s'. repeat split; assumption.
Defined.

(** C8: [change] never checks the email.  Every update request is answered
    200, 404 or 500, never 400, and putting any other email (or none) in the
    body gives the same status. *)
Theorem change_never_validates_email (request : Request.t) (s : State) :
  ∃ r s', change request s = (Return r, s') ∧ response s' = r ∧
    statusCode r ≠ 400 ∧
    (statusCode r = 200 ∨ statusCode r = 404 ∨ statusCode r = 500) ∧
    ∀ email, ∃ r2 s2,
      change (with_email email request) s = (Return r2, s2) ∧
      statusCode r2 = statusCode r ∧ sent r2 = sent r.
Proof.
  rewrite change_run.
  assert (∀ email, change (with_email email request) s = _) as Hother
    by (intros email; apply change_run).
  cbn [with_email Request.id] in Hother.
  destruct (fault_at 0 s); [|destruct (find _ _); [destruct (fault_at 1 s)|]];
    (eexists _, _; split; [reflexivity|]; split; [reflexivity|];
     split; [discriminate|]; split; [simpl; auto|];
     intros email; rewrite Hother; by eexists _, _).
Qed.

(** C9: a delete request, its lookup having succeeded.  If no row has the id,
    the answer is 404 with the message naming the id, the lookup is the only
    query issued and the table is as before.  If a row has the id and the
    delete succeeds, the answer is 200 with the message naming the id, no row
    with that id is left while the other rows are kept, and a get-one on that
    id, served next, answers 404. *)
Theorem remove_deletes_user (request : Request.t) (s : State) :
  let id := Request.id request in
  fault_at 0 s = false →
  (find (where_id id) (users_table s) = None →
   ∃ r s', remove request s = (Return r, s') ∧ response s' = r ∧
     statusCode r = 404 ∧
     sent r = Some (JMessage ("User with ID " +:+ id +:+ " was not found to be deleted.")) ∧
     users_table s' = users_table s ∧
     faults s' = tail (faults s)) ∧
  (∀ u, find (where_id id) (users_table s) = Some u →
   fault_at 1 s = false →
   ∃ r s', remove request s = (Return r, s') ∧ response s' = r ∧
     statusCode r = 200 ∧
     sent r = Some (JMessage ("User with ID " +:+ id +:+ " deleted. ")) ∧
     users_table s' = deleted id (users_table s) ∧
     (id ∉ User.id <$> users_table s') ∧
     (∀ v, User.id v ≠ id → v ∈ users_table s' ↔ v ∈ users_table s) ∧
     (fault_at 2 s = false →
      ∀ request', Request.id request' = id →
        ∃ r2 s2, show request' (next_request s') = (Return r2, s2) ∧
          statusCode r2 = 404 ∧
          sent r2 = Some (JMessage ("User with ID " +:+ id +:+
                                    " not found in the database.")))).
Proof.
  intros id H0. split.
  - intros Hnone. rewrite remove_run. fold id. rewrite H0, Hnone.
    eexists _, _. split; [reflexivity|]. by repeat split.
  - intros u Hsome H1. rewrite remove_run. fold id. rewrite H0, Hsome, H1.
    eexists _, _. split; [reflexivity|]. split; [reflexivity|].
    split; [reflexivity|]. split; [reflexivity|]. split; [reflexivity|].
    cbn [response_status_json snd users_table set_response set_users].
    split; [|split].
    + rewrite list_elem_of_fmap. intros (v & Hid & Hv).
      apply elem_of_deleted in Hv as [_ Hne]. done.
    + intros v Hid. rewrite elem_of_deleted. by split; [intros [? _] | intros ?].
    + intros H2 request' Hid'. rewrite show_run, Hid'.
      rewrite fault_at_after_two, H2.
      cbn [users_table next_request set_response set_users].
      rewrite find_deleted.
      eexists _, _. split; [reflexivity|]. by split.
Qed.

Lemma remove_deletes_user_witness :
  fault_at 0 (at_start [ana; bob] []) = false ∧
  (∃ r s', remove (a_request "0badf00e" None) (at_start [ana; bob] []) = (Return r, s') ∧
     statusCode r = 404 ∧
     users_table s' = [ana; bob]) ∧
  (∃ r s', remove (a_request "0badf00d" None) (at_start [ana; bob] []) = (Return r, s') ∧
     statusCode r = 200 ∧
     sent r = Some (JMessage "User with ID 0badf00d deleted. ") ∧
     users_table s' = [ana] ∧
     ∃ r2 s2, show (a_request "0badf00d" None) (next_request s') = (Return r2, s2) ∧
       statusCode r2 = 404).
Proof.
  split; [reflexivity|]. split.
  - destruct (remove_deletes_user (a_request "0badf00e" None)
                (at_start [ana; bob] []) eq_refl) as [Hmissing _].
    destruct (Hmissing eq_refl) as (r & s' & Hrun & _ & Hstatus & _ & Husers & _).
    exists r, s'. repeat split; assumption.
  - destruct (remove_deletes_user (a_request "0badf00d" None)
                (at_start [ana; bob] []) eq_refl) as [_ Hpresent].
    destruct (Hpresent bob eq_refl eq_refl)
      as (r & s' & Hrun & _ & Hstatus & Hsent & Husers & _ & _ & Hshow).
    exists r, s'. repeat split; try assumption.
    destruct (Hshow eq_refl (a_request "0badf00d" None) eq_refl)
      as (r2 & s2 & Hrun2 & Hstatus2 & _).
    exists r2, s2. split; assumption.
Defined.

(** ** Further properties of the handlers *)

Lemma find_where_id_None id us :
  find (where_id id) us = None ↔ id ∉ User.id <$> us.
Proof.
  rewrite <- existsb_where_id.
  induction us as [|u us IH]; simpl; [done|].
  destruct (where_id id u); simpl; [done | exact IH].
Qed.

(** The row a lookup gives is the first one with the id. *)
Lemma find_where_id_first id us u :
  find (where_id id) us = Some u →
  User.id u = id ∧
  ∃ before after, us = (before ++ u :: after)%list ∧ id ∉ User.id <$> before.
Proof.
  induction us as [|v us IH]; simpl; [done|].
  destruct (where_id id v) eqn:Hv.
  - intros [= ->]. split; [by apply where_id_spec|].
    exists [], us. split; [done | apply not_elem_of_nil].
  - intros Hfind. destruct (IH Hfind) as (Hid & before & after & -> & Hnot).
    split; [done|]. exists (v :: before), after. split; [done|].
    rewrite fmap_cons. apply not_elem_of_cons. split; [|done].
    unfold where_id in Hv. apply bool_decide_eq_false in Hv. congruence.
Qed.

Lemma drop_1_tail {A} (l : list A) : drop 1 l = tail l.
Proof. by destruct l. Qed.

Lemma drop_2_tail {A} (l : list A) : drop 2 l = tail (tail l).
Proof. by destruct l as [|a [|b l]]. Qed.

(** X1: when its lookup succeeds, [show] prints nothing and answers by
    whether some row has the id: 404 naming the id when none has, and
    otherwise 200 with the first row of the table that has it. *)
Theorem show_answers_first_match (request : Request.t) (s : State) :
  let id := Request.id request in
  fault_at 0 s = false →
  ∃ r s', show request s = (Return r, s') ∧ response s' = r ∧
    console s' = console s ∧
    (id ∉ User.id <$> users_table s →
     statusCode r = 404 ∧
     sent r = Some (JMessage ("User with ID " +:+ id +:+ " not found in the database."))) ∧
    (id ∈ User.id <$> users_table s →
     statusCode r = 200 ∧
     ∃ u before after, sent r = Some (JUser u) ∧ User.id u = id ∧
       users_table s = (before ++ u :: after)%list ∧
       id ∉ User.id <$> before).
Proof.
  intros id H0. rewrite show_run. fold id. rewrite H0.
  destruct (find (where_id id) (users_table s)) as [u|] eqn:Hfind.
  - eexists _, _. split; [reflexivity|]. split; [reflexivity|]. split; [reflexivity|].
    apply find_where_id_first in Hfind as Hfirst.
    destruct Hfirst as (Hid & before & after & Hus & Hnot).
    split.
    + intros Hno. apply find_where_id_None in Hno. congruence.
    + intros _. split; [done|]. by exists u, before, after.
  - eexists _, _. split; [reflexivity|]. split; [reflexivity|]. split; [reflexivity|].
    split; [done|].
    intros Hin. by apply find_where_id_None in Hfind.
Qed.

Lemma show_answers_first_match_witness :
  fault_at 0 (at_start [ana; bob] []) = false ∧
  ∃ r s', show (a_request "0badf00d" None) (at_start [ana; bob] []) = (Return r, s') ∧
    statusCode r = 200 ∧
    sent r = Some (JUser bob).
Proof.
  split; [reflexivity|].
  destruct (show_answers_first_match (a_request "0badf00d" None)
              (at_start [ana; bob] []) eq_refl)
    as (r & s' & Hrun & _ & _ & _ & Hfound).
  exists r, s'. split; [exact Hrun|].
  injection Hrun as <- _. split; reflexivity.
Defined.

Ltac settle_answer :=
  eexists _, _; split; [reflexivity|]; split; [reflexivity|]; simpl;
  split; [set_solver | by eexists].

(** X2: [index], [show] and [remove] catch every failure of the store.
    Each of their queries is awaited inside a [try], so whichever of them the
    store fails on, the handler returns the response object with a JSON body
    and status 200, 404 or 500.  ([create] and [change] read the body, and
    [create] calls [validate], before their [try]; they are not part of this
    statement.) *)
Theorem store_failures_never_escape (request : Request.t) (s : State) :
  answers (index request) s [200; 404; 500] ∧
  answers (show request) s [200; 404; 500] ∧
  answers (remove request) s [200; 404; 500].
Proof.
  unfold answers. repeat apply conj.
  - rewrite index_run.
    destruct (fault_at 0 s); [|destruct (fault_at 1 s)]; try settle_answer.
    destruct (Nat.eqb (length (users_table s)) 0); settle_answer.
  - rewrite show_run.
    destruct (fault_at 0 s); [|destruct (find _ _)]; settle_answer.
  - rewrite remove_run.
    destruct (fault_at 0 s); [|destruct (find _ _); [destruct (fault_at 1 s)|]];
      settle_answer.
Qed.

Ltac settle_give_up :=
  eexists _, _; split; [reflexivity|]; by repeat split.

(** X3: when the store fails on the first query of a request, the handler
    gives up at once: it answers 500 with its own message (naming the id
    where there is one), prints the failure, issues no further query and
    leaves the table alone.  For [create] this is the request whose email
    passed the check. *)
Theorem first_query_failure_gives_up
    (validate : option string → bool) (request : Request.t) (s : State) :
  let id := Request.id request in
  let access :=
    "Error when trying to access User with ID " +:+ id +:+ " in the database." in
  fault_at 0 s = true →
  gives_up (index request) s "Error when trying to access Users in the database." ∧
  gives_up (show request) s access ∧
  gives_up (change request) s access ∧
  gives_up (remove request) s access ∧
  (validate (Request.email (Request.body_of request)) = true →
   gives_up (create validate request) s
     "Error when trying to insert new User in the database.").
Proof.
  intros id access H0. unfold gives_up. repeat apply conj.
  - rewrite index_run, H0. settle_give_up.
  - rewrite show_run, H0. settle_give_up.
  - rewrite change_run, H0. settle_give_up.
  - rewrite remove_run, H0. settle_give_up.
  - intros Hgood. rewrite create_run, Hgood, H0. settle_give_up.
Qed.

Lemma first_query_failure_gives_up_witness :
  fault_at 0 (at_start [ana; bob] [true]) = true ∧
  gives_up (remove (a_request "0badf00d" None)) (at_start [ana; bob] [true])
    "Error when trying to access User with ID 0badf00d in the database.".
Proof.
  split; [reflexivity|].
  destruct (first_query_failure_gives_up sample_validate
              (a_request "0badf00d" None) (at_start [ana; bob] [true]) eq_refl)
    as (_ & _ & _ & Hremove & _).
  exact Hremove.
Defined.

(** X4: a create request whose email passed the check and whose insert is
    refused, for whatever reason, is answered 500 with the fixed message,
    which shows neither the id nor the reason.  The reason is printed on the
    console, the table is as before, and the four random bytes of the id that
    was not used are consumed all the same. *)
Theorem create_insert_refused
    (validate : option string → bool) (request : Request.t) (s : State) (err : Error) :
  let b := Request.body_of request in
  let id := toString_hex (entropy s <$> seq (drawn s) 4) in
  let new_user :=
    User.mk id (Request.name b) (Request.phone b) (Request.email b)
            (Request.age b) (Request.weight b) in
  validate (Request.email b) = true →
  (db_insert new_user (set_drawn (drawn s + 4) s)).1 = Throw err →
  ∃ r s', create validate request s = (Return r, s') ∧ response s' = r ∧
    statusCode r = 500 ∧
    sent r = Some (JMessage "Error when trying to insert new User in the database.") ∧
    console s' = (console s ++ [err])%list ∧
    users_table s' = users_table s ∧
    drawn s' = drawn s + 4.
Proof.
  intros b id new_user Hgood Hins. rewrite create_run. fold b id new_user.
  rewrite Hgood. unfold db_insert, query in Hins.
  rewrite fault_at_set_drawn in Hins. simpl in Hins. fold id in Hins.
  destruct (fault_at 0 s); simpl in Hins.
  - injection Hins as <-. eexists _, _. split; [reflexivity|]. by repeat split.
  - destruct (existsb (where_id id) (users_table s)); simpl in Hins; [|done].
    injection Hins as <-. eexists _, _. split; [reflexivity|]. by repeat split.
Qed.

Lemma create_insert_refused_witness :
  sample_validate (Some "a@b.com") = true ∧
  ∃ r s', create sample_validate (a_request "" (Some "a@b.com"))
            (at_start [ana; dee] []) = (Return r, s') ∧
    statusCode r = 500 ∧
    console s' = [UniqueViolation "deadbeef"] ∧
    users_table s' = [ana; dee] ∧
    drawn s' = 4.
Proof.
  split; [reflexivity|].
  destruct (create_insert_refused sample_validate (a_request "" (Some "a@b.com"))
              (at_start [ana; dee] []) (UniqueViolation "deadbeef") eq_refl eq_refl)
    as (r & s' & Hrun & _ & Hstatus & _ & Hconsole & Husers & Hdrawn).
  exists r, s'. repeat split; assumption.
Defined.

Ltac settle_no_write :=
  intros r s' Hrun Hstatus; injection Hrun as <- <-; simpl in *;
  first [reflexivity | lia].

(** X5: an error response means nothing was written.  Whenever one of the
    five handlers answers with a status of 400 or more, the table is exactly
    as it was before the request. *)
Theorem error_responses_write_nothing
    (validate : option string → bool) (request : Request.t) (s : State) :
  writes_on_success_only (index request) s ∧
  writes_on_success_only (show request) s ∧
  writes_on_success_only (create validate request) s ∧
  writes_on_success_only (change request) s ∧
  writes_on_success_only (remove request) s.
Proof.
  unfold writes_on_success_only. repeat apply conj.
  - rewrite index_run.
    destruct (fault_at 0 s); [|destruct (fault_at 1 s)]; settle_no_write.
  - rewrite show_run.
    destruct (fault_at 0 s); [|destruct (find _ _)]; settle_no_write.
  - rewrite create_run. destruct (validate _); [|settle_no_write].
    destruct (fault_at 0 s); [|destruct (existsb _ _)]; settle_no_write.
  - rewrite change_run.
    destruct (fault_at 0 s); [|destruct (find _ _); [destruct (fault_at 1 s)|]];
      settle_no_write.
  - rewrite remove_run.
    destruct (fault_at 0 s); [|destruct (find _ _); [destruct (fault_at 1 s)|]];
      settle_no_write.
Qed.

(** X6: [index] is the only handler that writes a response header, and
    [create] the only one that draws from the random source: [show],
    [create], [change] and [remove] return the headers they were given, and
    after [index], [show], [change] and [remove] as many random bytes are
    drawn as before. *)
Theorem headers_and_entropy_untouched
    (validate : option string → bool) (request : Request.t) (s : State) :
  (∀ handler,
     handler ∈ [show request; create validate request; change request; remove request] →
     headers (response (handler s).2) = headers (response s)) ∧
  (∀ handler,
     handler ∈ [index request; show request; change request; remove request] →
     drawn (handler s).2 = drawn s).
Proof.
  split; intros handler Hin;
    repeat (apply elem_of_cons in Hin as [->|Hin]);
    try (by apply elem_of_nil in Hin).
  - rewrite show_run. by destruct (fault_at 0 s); [|destruct (find _ _)].
  - rewrite create_run. destruct (validate _); [|done].
    by destruct (fault_at 0 s); [|destruct (existsb _ _)].
  - rewrite change_run.
    by destruct (fault_at 0 s); [|destruct (find _ _); [destruct (fault_at 1 s)|]].
  - rewrite remove_run.
    by destruct (fault_at 0 s); [|destruct (find _ _); [destruct (fault_at 1 s)|]].
  - rewrite index_run. by destruct (fault_at 0 s); [|destruct (fault_at 1 s)].
  - rewrite show_run. by destruct (fault_at 0 s); [|destruct (find _ _)].
  - rewrite change_run.
    by destruct (fault_at 0 s); [|destruct (find _ _); [destruct (fault_at 1 s)|]].
  - rewrite remove_run.
    by destruct (fault_at 0 s); [|destruct (find _ _); [destruct (fault_at 1 s)|]].
Qed.

(** X7: the handlers issue their queries in turn and never again.  [show]
    issues one query; [index] issues its count only after its select went
    through; [create] issues one insert, and none for an email that fails the
    check; [change] and [remove] issue their write only after a lookup that
    went through and found a row.  A query that failed is not retried. *)
Theorem queries_issued
    (validate : option string → bool) (request : Request.t) (s : State) :
  let id := Request.id request in
  let lookup_then_write :=
    if fault_at 0 s then 1
    else match find (where_id id) (users_table s) with
         | Some _ => 2
         | None => 1
         end in
  issues (index request) s (if fault_at 0 s then 1 else 2) ∧
  issues (show request) s 1 ∧
  issues (create validate request) s
    (if validate (Request.email (Request.body_of request)) then 1 else 0) ∧
  issues (change request) s lookup_then_write ∧
  issues (remove request) s lookup_then_write.
Proof.
  intros id lookup_then_write. unfold issues, lookup_then_write.
  repeat apply conj.
  - rewrite index_run.
    destruct (fault_at 0 s); [|destruct (fault_at 1 s)]; simpl;
      by rewrite ?drop_1_tail, ?drop_2_tail.
  - rewrite show_run.
    destruct (fault_at 0 s); [|destruct (find _ _)]; simpl;
      by rewrite drop_1_tail.
  - rewrite create_run. destruct (validate _); [|done].
    destruct (fault_at 0 s); [|destruct (existsb _ _)]; simpl;
      by rewrite drop_1_tail.
  - rewrite change_run. fold id.
    destruct (fault_at 0 s); [|destruct (find _ _); [destruct (fault_at 1 s)|]];
      simpl; by rewrite ?drop_1_tail, ?drop_2_tail.
  - rewrite remove_run. fold id.
    destruct (fault_at 0 s); [|destruct (find _ _); [destruct (fault_at 1 s)|]];
      simpl; by rewrite ?drop_1_tail, ?drop_2_tail.
Qed.

(** The [k]-th query after [n] were issued is the [(n + k)]-th from the
    start. *)
Lemma fault_at_later k n s s' :
  faults s' = drop n (faults s) → fault_at k s' = fault_at (n + k) s.
Proof.
  unfold fault_at. intros ->. generalize (faults s) as l.
  induction n as [|n IH]; intros l; [done|].
  destruct l as [|f l]; simpl; [by destruct k | apply IH].
Qed.

Lemma find_app_new id us u :
  find (where_id id) us = None →
  find (where_id id) (us ++ [u])%list = if where_id id u then Some u else None.
Proof.
  induction us as [|v us IH]; simpl; [done|].
  destruct (where_id id v); [done | exact IH].
Qed.

Lemma ids_updated id b us : User.id <$> updated id b us = User.id <$> us.
Proof.
  unfold updated. induction us as [|u us IH]; [done|].
  rewrite !fmap_cons, IH. by destruct (where_id id u).
Qed.

Lemma deleted_cons id u us :
  deleted id (u :: us) = if where_id id u then deleted id us else u :: deleted id us.
Proof. unfold deleted. simpl. by destruct (where_id id u). Qed.

Lemma ids_deleted_unique id us :
  NoDup (User.id <$> us) → NoDup (User.id <$> deleted id us).
Proof.
  induction us as [|u us IH]; [done|].
  rewrite fmap_cons, NoDup_cons, deleted_cons. intros [Hu Hus].
  destruct (where_id id u); [by apply IH|].
  rewrite fmap_cons. apply NoDup_cons. split; [|by apply IH].
  intros Hin. apply Hu. apply list_elem_of_fmap in Hin as (v & Hv & Hin).
  apply list_elem_of_fmap. exists v. split; [done|].
  by apply elem_of_deleted in Hin as [Hin _].
Qed.

(** X8: the hexadecimal form loses nothing: two byte sequences have the same
    token exactly when they are the same sequence, so two ids made by
    [create] are equal only if the random source gave the same four bytes. *)
Theorem toString_hex_injective (bs1 bs2 : list Byte.byte) :
  toString_hex bs1 = toString_hex bs2 ↔ bs1 = bs2.
Proof.
  split; [|by intros ->].
  intros Heq. apply (f_equal from_hex) in Heq.
  rewrite !from_hex_toString_hex in Heq. by injection Heq.
Qed.

(** X9: a row that [create] inserted is read back by [show].  After a create
    request answered 201, a get-one on the new id, served next and with its
    lookup succeeding, answers 200 with that id and the name, phone, email,
    age and weight of the create request, and changes nothing. *)
Theorem create_then_show
    (validate : option string → bool) (request : Request.t) (s : State) :
  let b := Request.body_of request in
  let id := toString_hex (entropy s <$> seq (drawn s) 4) in
  let new_user :=
    User.mk id (Request.name b) (Request.phone b) (Request.email b)
            (Request.age b) (Request.weight b) in
  validate (Request.email b) = true →
  (db_insert new_user (set_drawn (drawn s + 4) s)).1 = Return () →
  fault_at 1 s = false →
  ∃ r s', create validate request s = (Return r, s') ∧ statusCode r = 201 ∧
    ∀ request', Request.id request' = id →
      ∃ r2 s2, show request' (next_request s') = (Return r2, s2) ∧
        statusCode r2 = 200 ∧
        sent r2 = Some (JUser new_user) ∧
        users_table s2 = users_table s'.
Proof.
  intros b id new_user Hgood Hins H1.
  apply db_insert_succeeds in Hins as [H0 Hfresh].
  rewrite fault_at_set_drawn in H0.
  change (id ∉ User.id <$> users_table s) in Hfresh.
  rewrite create_run. fold b id new_user. rewrite Hgood, H0.
  apply existsb_where_id in Hfresh as Hno. rewrite Hno.
  eexists _, _. split; [reflexivity|]. split; [reflexivity|].
  intros request' Hid. rewrite show_run, Hid.
  rewrite (fault_at_later 0 1 s) by (simpl; by rewrite drop_1_tail).
  cbn [Nat.add]. rewrite H1. cbn [users_table next_request set_response set_users response_status_json snd].
  rewrite find_app_new by (by apply find_where_id_None).
  assert (where_id id new_user = true) as -> by (by apply where_id_spec).
  eexists _, _. split; [reflexivity|]. by repeat split.
Qed.

Lemma create_then_show_witness :
  sample_validate (Some "a@b.com") = true ∧
  fault_at 1 (at_start [ana; bob] []) = false ∧
  ∃ r s', create sample_validate (a_request "" (Some "a@b.com"))
            (at_start [ana; bob] []) = (Return r, s') ∧
    ∃ r2 s2, show (a_request "deadbeef" None) (next_request s') = (Return r2, s2) ∧
      statusCode r2 = 200 ∧
      sent r2 = Some (JUser (User.mk "deadbeef" (Some "Cleo") None (Some "a@b.com")
                               (Some 27%float) (Some 61%float))).
Proof.
  split; [reflexivity|]. split; [reflexivity|].
  destruct (create_then_show sample_validate (a_request "" (Some "a@b.com"))
              (at_start [ana; bob] []) eq_refl eq_refl eq_refl)
    as (r & s' & Hrun & _ & Hshow).
  exists r, s'. split; [exact Hrun|].
  destruct (Hshow (a_request "deadbeef" None) eq_refl)
    as (r2 & s2 & Hrun2 & Hstatus2 & Hsent2 & _).
  exists r2, s2. repeat split; assumption.
Defined.

(** X10: [change] never touches an id.  Whatever the request and however its
    queries go, the table has the same ids in the same order afterwards, and
    so as many rows: an update creates no row, removes none and renames
    none. *)
Theorem change_keeps_ids (request : Request.t) (s : State) :
  User.id <$> users_table (change request s).2 = User.id <$> users_table s ∧
  length (users_table (change request s).2) = length (users_table s).
Proof.
  assert (User.id <$> users_table (change request s).2 = User.id <$> users_table s)
    as Hids.
  { rewrite change_run.
    destruct (fault_at 0 s); [|destruct (find _ _); [destruct (fault_at 1 s)|]];
      try reflexivity.
    apply ids_updated. }
  split; [exact Hids|].
  apply (f_equal length) in Hids. by rewrite !length_fmap in Hids.
Qed.

(** X12: when the lookup of [remove] finds the row and the delete then fails,
    the answer is 500 with the message naming the id, the failure is printed
    on the console and the row is still there: the table is as before. *)
Theorem remove_delete_failure (request : Request.t) (s : State) (u : User.t) :
  let id := Request.id request in
  fault_at 0 s = false →
  find (where_id id) (users_table s) = Some u →
  fault_at 1 s = true →
  ∃ r s', remove request s = (Return r, s') ∧ response s' = r ∧
    statusCode r = 500 ∧
    sent r = Some (JMessage ("Could not delete User with ID " +:+ id +:+ ".")) ∧
    console s' = (console s ++ [StoreFailure])%list ∧
    users_table s' = users_table s.
Proof.
  intros id H0 Hsome H1. rewrite remove_run. fold id. rewrite H0, Hsome, H1.
  eexists _, _. split; [reflexivity|]. by repeat split.
Qed.

Lemma remove_delete_failure_witness :
  fault_at 0 (at_start [ana; bob] [false; true]) = false ∧
  find (where_id "0badf00d") [ana; bob] = Some bob ∧
  fault_at 1 (at_start [ana; bob] [false; true]) = true ∧
  ∃ r s', remove (a_request "0badf00d" None) (at_start [ana; bob] [false; true])
            = (Return r, s') ∧
    statusCode r = 500 ∧
    sent r = Some (JMessage "Could not delete User with ID 0badf00d.") ∧
    console s' = [StoreFailure] ∧
    users_table s' = [ana; bob].
Proof.
  split; [reflexivity|]. split; [reflexivity|]. split; [reflexivity|].
  destruct (remove_delete_failure (a_request "0badf00d" None)
              (at_start [ana; bob] [false; true]) bob eq_refl eq_refl eq_refl)
    as (r & s' & Hrun & _ & Hstatus & Hsent & Hconsole & Husers).
  exists r, s'. repeat split; assumption.
Defined.

(** X13: deleting twice.  After a delete request answered 200, the same
    request served again, its lookup succeeding, is answered 404 naming the
    id, issues no delete and leaves the table as the first one left it. *)
Theorem remove_twice (request : Request.t) (s : State) (u : User.t) :
  let id := Request.id request in
  find (where_id id) (users_table s) = Some u →
  fault_at 0 s = false →
  fault_at 1 s = false →
  fault_at 2 s = false →
  ∃ r1 s1 r2 s2,
    remove request s = (Return r1, s1) ∧
    remove request (next_request s1) = (Return r2, s2) ∧
    statusCode r1 = 200 ∧ statusCode r2 = 404 ∧
    sent r2 = Some (JMessage ("User with ID " +:+ id +:+ " was not found to be deleted.")) ∧
    users_table s2 = users_table s1 ∧
    faults s2 = tail (faults s1).
Proof.
  intros id Hsome H0 H1 H2.
  rewrite (remove_run request s). fold id. rewrite H0, Hsome, H1.
  eexists _, _. eexists _, _. split; [reflexivity|].
  rewrite remove_run. fold id.
  rewrite (fault_at_later 0 2 s) by (simpl; by rewrite drop_2_tail).
  cbn [Nat.add]. rewrite H2.
  cbn [users_table next_request set_response set_users response_status_json snd].
  rewrite find_deleted.
  split; [reflexivity|]. by repeat split.
Qed.

Lemma remove_twice_witness :
  find (where_id "0badf00d") [ana; bob] = Some bob ∧
  ∃ r1 s1 r2 s2,
    remove (a_request "0badf00d" None) (at_start [ana; bob] []) = (Return r1, s1) ∧
    remove (a_request "0badf00d" None) (next_request s1) = (Return r2, s2) ∧
    statusCode r1 = 200 ∧ statusCode r2 = 404 ∧
    users_table s2 = [ana].
Proof.
  split; [reflexivity|].
  destruct (remove_twice (a_request "0badf00d" None) (at_start [ana; bob] []) bob
              eq_refl eq_refl eq_refl eq_refl)
    as (r1 & s1 & r2 & s2 & Hrun1 & Hrun2 & Hstatus1 & Hstatus2 & _ & Husers & _).
  exists r1, s1, r2, s2. repeat split; try assumption.
  rewrite Husers. injection Hrun1 as _ <-. reflexivity.
Defined.

(** X14: the ids stay unique.  If no two rows of the table share an id before
    a request, none do after it, whichever of the five handlers serves it and
    however its queries go: [create] adds a row only when the store, with
    [id] as primary key, accepts it, [change] keeps every id and [remove]
    only takes rows away. *)
Theorem handlers_keep_ids_unique
    (validate : option string → bool) (request : Request.t) (s : State) :
  NoDup (User.id <$> users_table s) →
  ∀ handler,
    handler ∈ [index request; show request; create validate request;
               change request; remove request] →
    NoDup (User.id <$> users_table (handler s).2).
Proof.
  intros Hunique handler Hin.
  repeat (apply elem_of_cons in Hin as [->|Hin]);
    try (by apply elem_of_nil in Hin).
  - rewrite index_run. by destruct (fault_at 0 s); [|destruct (fault_at 1 s)].
  - rewrite show_run. by destruct (fault_at 0 s); [|destruct (find _ _)].
  - rewrite create_run. destruct (validate _); [|done].
    destruct (fault_at 0 s); [done|].
    destruct (existsb _ _) eqn:Hno; [done|].
    cbn [users_table set_response set_users response_status_json snd].
    rewrite fmap_app. apply NoDup_app. split; [done|].
    split; [|apply NoDup_singleton].
    intros id Hid Hnew. apply list_elem_of_singleton in Hnew. subst id.
    by apply existsb_where_id in Hno.
  - rewrite change_run.
    destruct (fault_at 0 s); [|destruct (find _ _); [destruct (fault_at 1 s)|]];
      try done.
    cbn [users_table set_response set_users response_status_json snd].
    by rewrite ids_updated.
  - rewrite remove_run.
    destruct (fault_at 0 s); [|destruct (find _ _); [destruct (fault_at 1 s)|]];
      try done.
    cbn [users_table set_response set_users response_status_json snd].
    by apply ids_deleted_unique.
Qed.

Lemma handlers_keep_ids_unique_witness :
  NoDup (User.id <$> [ana; bob]) ∧
  NoDup (User.id <$> users_table
           (create sample_validate (a_request "" (Some "a@b.com"))
              (at_start [ana; bob] [])).2).
Proof.
  assert (NoDup (User.id <$> [ana; bob])) as Hunique.
  { apply NoDup_cons. split; [|apply NoDup_singleton].
    intros Hin. apply list_elem_of_singleton in Hin. discriminate. }
  split; [exact Hunique|].
  apply (handlers_keep_ids_unique sample_validate (a_request "" (Some "a@b.com"))
           (at_start [ana; bob] []) Hunique).
  do 2 apply list_elem_of_further. apply list_elem_of_here.
Defined.

(** X15: [create] is not idempotent.  The same valid request served twice,
    the store not failing, draws a new id each time.  With the first id not
    in the table the first is answered 201; if the second id is different and
    not in the table either, the second is answered 201 as well and the table
    gains two rows that differ in their id only; if the random source repeats
    the first id or gives one that is taken, the second is answered 500 and
    the table gains the first row only. *)
Theorem create_twice
    (validate : option string → bool) (request : Request.t) (s : State) :
  let b := Request.body_of request in
  let id1 := toString_hex (entropy s <$> seq (drawn s) 4) in
  let id2 := toString_hex (entropy s <$> seq (drawn s + 4) 4) in
  let row id :=
    User.mk id (Request.name b) (Request.phone b) (Request.email b)
            (Request.age b) (Request.weight b) in
  validate (Request.email b) = true →
  fault_at 0 s = false →
  fault_at 1 s = false →
  id1 ∉ User.id <$> users_table s →
  ∃ r1 s1 r2 s2,
    create validate request s = (Return r1, s1) ∧
    create validate request (next_request s1) = (Return r2, s2) ∧
    statusCode r1 = 201 ∧
    (id2 ≠ id1 ∧ id2 ∉ User.id <$> users_table s →
     statusCode r2 = 201 ∧
     users_table s2 = (users_table s ++ [row id1; row id2])%list) ∧
    (id2 = id1 ∨ id2 ∈ User.id <$> users_table s →
     statusCode r2 = 500 ∧
     users_table s2 = (users_table s ++ [row id1])%list).
Proof.
  intros b id1 id2 row Hgood H0 H1 Hfresh.
  rewrite (create_run validate request s). fold b id1. rewrite Hgood, H0.
  apply existsb_where_id in Hfresh as Hno. rewrite Hno.
  destruct (existsb (where_id id2) (users_table s)) eqn:Hin2;
    destruct (bool_decide (id1 = id2)) eqn:Heq;
    (eexists _, _; eexists _, _; split; [reflexivity|];
     rewrite create_run; fold b; rewrite Hgood;
     rewrite (fault_at_later 0 1 s) by (simpl; by rewrite drop_1_tail);
     cbn [Nat.add]; rewrite H1;
     cbn [users_table entropy drawn next_request set_response set_users set_faults
          set_drawn response_status_json snd];
     fold id2; rewrite existsb_app, Hin2; cbn [existsb]; rewrite orb_false_r;
     change (where_id id2 (User.mk id1 (Request.name b) (Request.phone b)
                             (Request.email b) (Request.age b) (Request.weight b)))
       with (bool_decide (id1 = id2));
     rewrite Heq; cbn [orb];
     split; [reflexivity|]; split; [reflexivity|]).
  - split; [|by intros _].
    intros [_ Hnot]. apply existsb_where_id in Hnot. congruence.
  - split; [|by intros _].
    intros [_ Hnot]. apply existsb_where_id in Hnot. congruence.
  - apply bool_decide_eq_true in Heq. split; [|by intros _].
    intros [Hne _]. congruence.
  - apply bool_decide_eq_false in Heq. apply existsb_where_id in Hin2.
    split.
    + intros _. split; [reflexivity|].
      cbn [users_table set_response set_users response_status_json snd].
      by rewrite <- app_assoc.
    + intros [Hsame|Hin]; [congruence | done].
Qed.

Lemma create_twice_witness :
  sample_validate (Some "a@b.com") = true ∧
  ∃ r1 s1 r2 s2,
    create sample_validate (a_request "" (Some "a@b.com")) (at_start [ana; bob] [])
      = (Return r1, s1) ∧
    create sample_validate (a_request "" (Some "a@b.com")) (next_request s1)
      = (Return r2, s2) ∧
    statusCode r1 = 201 ∧ statusCode r2 = 201 ∧
    User.id <$> users_table s2 = ["00c0ffee"; "0badf00d"; "deadbeef"; "2a2a2a2a"].
Proof.
  split; [reflexivity|].
  assert ("deadbeef" ∉ User.id <$> [ana; bob]) as Hfresh1.
  { by apply existsb_where_id. }
  assert ("2a2a2a2a" ∉ User.id <$> [ana; bob]) as Hfresh2.
  { by apply existsb_where_id. }
  destruct (create_twice sample_validate (a_request "" (Some "a@b.com"))
              (at_start [ana; bob] []) eq_refl eq_refl eq_refl Hfresh1)
    as (r1 & s1 & r2 & s2 & Hrun1 & Hrun2 & Hstatus1 & Hboth & _).
  destruct Hboth as [Hstatus2 Husers]; [split; [discriminate | exact Hfresh2]|].
  exists r1, s1, r2, s2. repeat split; try assumption.
  rewrite Husers. reflexivity.
Defined.

Lemma deleted_all id us :
  (∀ v, v ∈ us → User.id v = id) → deleted id us = [].
Proof.
  induction us as [|u us IH]; [done|]. intros Hall.
  rewrite deleted_cons.
  assert (where_id id u = true) as ->.
  { apply where_id_spec, Hall, list_elem_of_here. }
  apply IH. intros v Hv. by apply Hall, list_elem_of_further.
Qed.



(** X17: deleting the last user empties the listing.  When every row of the
    table has the id of a delete request that is answered 200, [index] served
    next, both its queries succeeding, answers 404 with the message that
    there are no users and [X-Total-Count] 0. *)
Theorem remove_last_then_index (request request' : Request.t) (s : State) (u : User.t) :
  let id := Request.id request in
  find (where_id id) (users_table s) = Some u →
  (∀ v, v ∈ users_table s → User.id v = id) →
  fault_at 0 s = false →
  fault_at 1 s = false →
  fault_at 2 s = false →
  fault_at 3 s = false →
  ∃ r s' r2 s2,
    remove request s = (Return r, s') ∧
    index request' (next_request s') = (Return r2, s2) ∧
    statusCode r = 200 ∧ statusCode r2 = 404 ∧
    sent r2 = Some (JMessage "There are no users in the database.") ∧
    headers r2 !! "X-Total-Count" = Some "0".
Proof.
  intros id Hsome Hall H0 H1 H2 H3.
  rewrite remove_run. fold id. rewrite H0, Hsome, H1.
  eexists _, _. eexists _, _. split; [reflexivity|].
  rewrite index_run.
  rewrite (fault_at_later 0 2 s) by (simpl; by rewrite drop_2_tail).
  rewrite (fault_at_later 1 2 s) by (simpl; by rewrite drop_2_tail).
  cbn [Nat.add]. rewrite H2, H3.
  cbn [users_table next_request set_response set_users response_status_json snd].
  rewrite (deleted_all id) by done.
  split; [reflexivity|]. split; [reflexivity|]. split; [reflexivity|].
  split; [reflexivity|]. reflexivity.
Qed.

Lemma remove_last_then_index_witness :
  find (where_id "0badf00d") [bob] = Some bob ∧
  ∃ r s' r2 s2,
    remove (a_request "0badf00d" None) (at_start [bob] []) = (Return r, s') ∧
    index (a_request "" None) (next_request s') = (Return r2, s2) ∧
    statusCode r = 200 ∧ statusCode r2 = 404 ∧
    headers r2 !! "X-Total-Count" = Some "0".
Proof.
  split; [reflexivity|].
  assert (∀ v, v ∈ [bob] → User.id v = "0badf00d") as Hall.
  { intros v Hv. apply list_elem_of_singleton in Hv. by subst v. }
  destruct (remove_last_then_index (a_request "0badf00d" None) (a_request "" None)
              (at_start [bob] []) bob eq_refl Hall eq_refl eq_refl eq_refl eq_refl)
    as (r & s' & r2 & s2 & Hrun & Hrun2 & Hstatus & Hstatus2 & _ & Hcount).
  exists r, s', r2, s2. repeat split; assumption.
Defined.
